(** * EnumField: a model field over a Python enumeration

    A shallow embedding of [django/db/models/fields/enum_field.py]:
    the coercer [EnumField.validate_value], the field constructor and its
    choice list, the storage-facing methods, and the form field
    [EnumChoiceField].  Python values are a small tagged union, exceptions
    are carried in a result type, and dictionaries are finite maps. *)

From Stdlib Require Import ZArith Ascii String.
From stdpp Require Import base decidable option list gmap strings pretty.

Local Open Scope Z_scope.

(** ** Python values *)

(** The primitive carried by a member of an enumeration: an [int] or a
    [str].  Equality is Python's [==] on these two types: an [int] is never
    equal to a [str]. *)
Inductive prim : Type :=
  | PInt (z : Z)
  | PStr (s : string).

#[global] Instance prim_eq_dec : EqDecision prim.
Proof. solve_decision. Defined.

(** A class created with [class C(enum.Enum)]: its name and the
    [NAME = value] lines of its body, in declaration order. *)
Record EnumClass : Type := {
  cls_name : string;
  cls_decl : list (string * prim)
}.

#[global] Instance EnumClass_eq_dec : EqDecision EnumClass.
Proof. solve_decision. Defined.

(** An instance of an enumeration class: [type(m)], [m.name], [m.value]. *)
Record Member : Type := {
  m_cls : EnumClass;
  m_name : string;
  m_value : prim
}.

#[global] Instance Member_eq_dec : EqDecision Member.
Proof. solve_decision. Defined.

(** The values the field is handed: [None], a primitive, or a member of
    some enumeration. *)
Inductive pyval : Type :=
  | PyNone
  | PyPrim (p : prim)
  | PyEnum (m : Member).

#[global] Instance pyval_eq_dec : EqDecision pyval.
Proof. solve_decision. Defined.

(** Classes, as far as [issubclass], [isinstance] and [type] need them. *)
Inductive PyClass : Type :=
  | EnumCls (c : EnumClass)
  | PlainCls (name : string).

Definition type_of (v : pyval) : PyClass :=
  match v with
  | PyNone => PlainCls "NoneType"
  | PyPrim (PInt _) => PlainCls "int"
  | PyPrim (PStr _) => PlainCls "str"
  | PyEnum m => EnumCls (m_cls m)
  end.

(** [isinstance(value, enum_module.Enum)] *)
Definition isinstance_Enum (v : pyval) : bool :=
  match v with PyEnum _ => true | _ => false end.

(** [isinstance(value, cls)] for an enumeration class [cls] *)
Definition isinstance (v : pyval) (cls : EnumClass) : bool :=
  match v with PyEnum m => bool_decide (m_cls m = cls) | _ => false end.

(** ** Exceptions and results *)

(** The arguments of [ValidationError(message, code=None, params=None)]. *)
Record ValidationErrorArgs : Type := {
  message : string;
  code : option string;
  params : option (gmap string pyval)
}.

Inductive exn : Type :=
  | ImportError (msg : string)
  | ValueError (msg : string)
  | TypeError (msg : string)
  | KeyError (key : string)
  | AttributeError (msg : string)
  | NameError (msg : string)
  | ValidationError (a : ValidationErrorArgs)
  | InvalidEnumValueError (a : ValidationErrorArgs)
  | InvalidEnumTypeError (a : ValidationErrorArgs).

Inductive result (A : Type) : Type :=
  | Ok (a : A)
  | Raise (e : exn).
Arguments Ok {A} a.
Arguments Raise {A} e.

Definition bind {A B : Type} (r : result A) (k : A -> result B) : result B :=
  match r with
  | Ok a => k a
  | Raise e => Raise e
  end.

Notation "x <- r ;; k" := (bind r (fun x => k))
  (at level 100, r at next level, right associativity).

(** [d[key]] on a dictionary with string keys *)
Definition getitem {V : Type} (d : gmap string V) (key : string) : result V :=
  match d !! key with
  | Some v => Ok v
  | None => Raise (KeyError key)
  end.

(** [for x in xs: f(x)], collecting the results; the first exception ends
    the loop. *)
Fixpoint map_result {A B : Type} (f : A -> result B) (xs : list A) : result (list B) :=
  match xs with
  | [] => Ok []
  | x :: rest =>
      y <- f x ;;
      ys <- map_result f rest ;;
      Ok (y :: ys)
  end.

(** ** Text: [repr], [str] and the [%] operator *)

(** [needle in hay] on strings *)
Fixpoint is_substring (needle hay : string) : bool :=
  String.prefix needle hay ||
  match hay with
  | EmptyString => false
  | String _ rest => is_substring needle rest
  end.

(** [repr] of text that needs no escaping: the text between single quotes. *)
Definition repr_str (s : string) : string := "'" +:+ s +:+ "'".

Definition str_prim (p : prim) : string :=
  match p with
  | PInt z => pretty z
  | PStr s => s
  end.

Definition repr_prim (p : prim) : string :=
  match p with
  | PInt z => pretty z
  | PStr s => repr_str s
  end.

(** [repr] of a class: [<enum 'Color'>], [<class 'int'>] *)
Definition repr_class (c : PyClass) : string :=
  match c with
  | EnumCls e => "<enum '" +:+ cls_name e +:+ "'>"
  | PlainCls n => "<class '" +:+ n +:+ "'>"
  end.

(** [repr] of a value; a member prints as [<Color.RED: 1>]. *)
Definition repr_val (v : pyval) : string :=
  match v with
  | PyNone => "None"
  | PyPrim p => repr_prim p
  | PyEnum m =>
      "<" +:+ cls_name (m_cls m) +:+ "." +:+ m_name m +:+ ": " +:+ repr_prim (m_value m) +:+ ">"
  end.

(** An argument of [%]: what [%r] and [%s] print for it. *)
Record fmt_arg : Type := {
  arg_repr : string;
  arg_str : string
}.

(** [template % args] for templates using [%r] and [%s].  Too few or too
    many arguments raise [TypeError], as in Python. *)
Fixpoint format (template : string) (args : list fmt_arg) : result string :=
  match template with
  | EmptyString =>
      match args with
      | [] => Ok EmptyString
      | _ :: _ => Raise (TypeError "not all arguments converted during string formatting")
      end
  | String c rest =>
      if Ascii.eqb c "%" then
        match rest with
        | String d rest' =>
            if Ascii.eqb d "r" || Ascii.eqb d "s" then
              match args with
              | a :: args' =>
                  tail <- format rest' args' ;;
                  Ok ((if Ascii.eqb d "r" then arg_repr a else arg_str a) +:+ tail)
              | [] => Raise (TypeError "not enough arguments for format string")
              end
            else
              tail <- format rest args ;;
              Ok (String c tail)
        | EmptyString => Raise (ValueError "incomplete format")
        end
      else
        tail <- format rest args ;;
        Ok (String c tail)
  end.

Definition arg_of_val (v : pyval) : fmt_arg :=
  {| arg_repr := repr_val v;
     arg_str := match v with PyPrim p => str_prim p | _ => repr_val v end |}.

Definition arg_of_class (c : PyClass) : fmt_arg :=
  {| arg_repr := repr_class c; arg_str := repr_class c |}.

Definition arg_of_text (s : string) : fmt_arg :=
  {| arg_repr := repr_str s; arg_str := s |}.

(** ** The [enum] library, as the field uses it *)

(** A line [NAME = value] whose value was already bound by an earlier line
    declares an alias, not a new member. *)
Fixpoint canonical_decl (seen : list prim) (decl : list (string * prim))
  : list (string * prim) :=
  match decl with
  | [] => []
  | d :: rest =>
      if bool_decide (d.2 ∈ seen) then canonical_decl seen rest
      else d :: canonical_decl (d.2 :: seen) rest
  end.

(** [list(cls)]: the members in declaration order, aliases left out. *)
Definition members (cls : EnumClass) : list Member :=
  (fun d => {| m_cls := cls; m_name := d.1; m_value := d.2 |})
    <$> canonical_decl [] (cls_decl cls).

(** [cls._value2member_map_.get(v)] *)
Definition value2member (cls : EnumClass) (v : prim) : option Member :=
  List.find (fun m => bool_decide (m_value m = v)) (members cls).

Definition not_a_valid {A : Type} (cls : EnumClass) (value : pyval) : result A :=
  msg <- format "%r is not a valid %s" [arg_of_val value; arg_of_text (cls_name cls)] ;;
  Raise (ValueError msg).

(** [cls(value)]: an instance of [cls] is returned as it is; anything else
    is looked up by value, and a miss raises [ValueError]. *)
Definition enum_call (cls : EnumClass) (value : pyval) : result Member :=
  match value with
  | PyEnum m => if decide (m_cls m = cls) then Ok m else not_a_valid cls value
  | PyPrim p =>
      match value2member cls p with
      | Some m => Ok m
      | None => not_a_valid cls value
      end
  | PyNone => not_a_valid cls value
  end.

(** ** The field *)

(** What the constructor reads of its [field_class] argument. *)
Record FieldClass : Type := {
  fc_name : string;
  fc_is_Field : bool;     (* issubclass(field_class, Field) *)
  fc_default_error_messages : gmap string string
}.

Record EnumField : Type := {
  enum_class : EnumClass;
  field_class : FieldClass;
  default_error_messages : gmap string string;
  choices : option (list (prim * Member));
  null : bool;
  blank : option bool
}.

(** The class attribute [EnumField.default_error_messages]. *)
Definition EnumField_default_error_messages : gmap string string :=
  {[ "invalid_value" := "%r is not a valid value for %r enum";
     "invalid_type" := "%r is configured for %r enum but received %r" ]}.

(** What may be passed as [choices=]; the list is the order in which
    iterating the object yields its elements. *)
Inductive pycollection : Type :=
  | PyList (xs : list pyval)
  | PyTuple (xs : list pyval)
  | PySet (xs : list pyval)
  | PyIterator (xs : list pyval)
  | PyDict (keys : list pyval).

Definition items (c : pycollection) : list pyval :=
  match c with
  | PyList xs | PyTuple xs | PySet xs | PyIterator xs | PyDict xs => xs
  end.

(** [isinstance(choices, (list, tuple, set))] *)
Definition is_list_tuple_set (c : pycollection) : bool :=
  match c with
  | PyList _ | PyTuple _ | PySet _ => true
  | PyIterator _ | PyDict _ => false
  end.

(** The keyword arguments the constructor looks at; the rest of [**kwargs]
    goes to [Field.__init__] untouched. *)
Record Kwargs : Type := {
  kw_choices : option pycollection;   (* kwargs.pop('choices', None) *)
  kw_blank : option bool;             (* kwargs.get('blank') *)
  kw_null : bool                      (* null=..., False when not given *)
}.

Definition choice_option (m : Member) : prim * Member := (m_value m, m).

Definition choice_list (itr : list Member) : list (prim * Member) :=
  choice_option <$> itr.

(** [EnumField.prepare_choices].  The inner [if] has no [else]: for a
    [choices] that is neither [None] nor a list, tuple or set the function
    falls off its end and returns [None]. *)
Definition prepare_choices (self_enum_class : EnumClass)
    (choices : option pycollection) (blank : option bool)
  : result (option (list (prim * Member))) :=
  match choices with
  | Some c =>
      if is_list_tuple_set c then
        ms <- map_result (enum_call self_enum_class) (items c) ;;
        Ok (Some (choice_list ms))
      else Ok None
  | None => Ok (Some (choice_list (members self_enum_class)))
  end.

(** [EnumField.validate_field_class] *)
Definition validate_field_class (field_class : FieldClass) : result FieldClass :=
  if negb (fc_is_Field field_class) then
    Raise (ValueError "field_class argument must be subclass of Field")
  else Ok field_class.

Section Collaborators.

(** [enum_module]: [true] when [import enum] succeeded at module load. *)
Variable enum_module : bool.

(** [repr(self)] for a field: [Field.__repr__], defined by the base class
    outside this module. *)
Variable Field_repr : EnumField -> string.

(** The body of [class EnumField] binds [validate_value] but no
    [validate_enum_value], so [self.validate_enum_value] is looked up in
    the base class [Field], which this module imports.  The variable is
    what [Field] binds under that name, if anything. *)
Variable Field_validate_enum_value : option (EnumField -> pyval -> result pyval).

(** [EnumField.validate_enum_class] *)
Definition validate_enum_class (enum_class : PyClass) : result EnumClass :=
  if negb enum_module then
    Raise (ImportError "enum34 package is required for EnumField")
  else
    match enum_class with
    | EnumCls c => Ok c
    | PlainCls _ => Raise (ValueError "enum_class argument must be subclass of enum.Enum")
    end.

(** [EnumField.__init__].  [dict(a.copy(), **b)] is [a] updated with [b];
    [Field.__init__] stores [choices] and the remaining keyword
    arguments on the instance. *)
Definition EnumField_init (enum_class : PyClass) (field_class : FieldClass)
    (kwargs : Kwargs) : result EnumField :=
  self_enum_class <- validate_enum_class enum_class ;;
  self_field_class <- validate_field_class field_class ;;
  let self_default_error_messages :=
    EnumField_default_error_messages ∪ fc_default_error_messages self_field_class in
  choices <- prepare_choices self_enum_class (kw_choices kwargs) (kw_blank kwargs) ;;
  Ok {| enum_class := self_enum_class;
        field_class := self_field_class;
        default_error_messages := self_default_error_messages;
        choices := choices;
        null := kw_null kwargs;
        blank := kw_blank kwargs |}.

(** [EnumField.validate_value]: the coercer. *)
Definition validate_value (self : EnumField) (value : pyval) : result pyval :=
  if bool_decide (value = PyNone) then
    if negb (null self) then
      Raise (InvalidEnumValueError {| message := ""; code := None; params := None |})
    else Ok value
  else if negb (isinstance_Enum value) then
    match enum_call (enum_class self) value with
    | Ok m => Ok (PyEnum m)
    | Raise (ValueError e) =>
        let err_code := "invalid_value" in
        err_msg <-
          (if is_substring "is not a valid" e then
             template <- getitem (default_error_messages self) err_code ;;
             format template [arg_of_val value; arg_of_class (EnumCls (enum_class self))]
           else Ok e) ;;
        Raise (InvalidEnumValueError
                 {| message := err_msg; code := Some err_code;
                    params := Some {[ "value" := value ]} |})
    | Raise e => Raise e
    end
  else if negb (isinstance value (enum_class self)) then
    let err_code := "invalid_type" in
    template <- getitem (default_error_messages self) err_code ;;
    err_msg <- format template
                 [ {| arg_repr := Field_repr self; arg_str := Field_repr self |};
                   arg_of_class (EnumCls (enum_class self));
                   arg_of_class (type_of value) ] ;;
    Raise (InvalidEnumTypeError
             {| message := err_msg; code := Some err_code;
                params := Some {[ "value" := value ]} |})
  else Ok value.

(** [self.validate_enum_value(value)] *)
Definition self_validate_enum_value (self : EnumField) (value : pyval) : result pyval :=
  match Field_validate_enum_value with
  | Some method => method self value
  | None =>
      Raise (AttributeError "'EnumField' object has no attribute 'validate_enum_value'")
  end.

(** [EnumField.get_db_prep_value]; [connection] and [prepared] are not
    read. *)
Definition get_db_prep_value (self : EnumField) (value : pyval) : result pyval :=
  value <- self_validate_enum_value self value ;;
  Ok value.

(** [EnumField.from_db_value] *)
Definition from_db_value (self : EnumField) (value : pyval) : result pyval :=
  self_validate_enum_value self value.

(** [EnumField.to_python]: the handler re-raises what it caught. *)
Definition to_python (self : EnumField) (value : pyval) : result pyval :=
  match self_validate_enum_value self value with
  | Raise (ValidationError a) => Raise (ValidationError a)
  | Raise (InvalidEnumValueError a) => Raise (InvalidEnumValueError a)
  | Raise (InvalidEnumTypeError a) => Raise (InvalidEnumTypeError a)
  | r => r
  end.

End Collaborators.

(** ** The form field *)

(** An [EnumChoiceField] instance: [enum_class] is set by its own
    constructor, the other attributes by [forms.ChoiceField]. *)
Record EnumChoiceField : Type := {
  ecf_enum_class : EnumClass;
  ecf_choices : list (prim * Member);
  error_messages : gmap string string;
  empty_values : list pyval
}.

(** The names bound at module level: the imports, the two exception
    classes and the two field classes. *)
Definition module_globals : list string :=
  [ "forms"; "ValidationError"; "_"; "Field"; "PositiveSmallIntegerField";
    "enum_module"; "InvalidEnumValueError"; "InvalidEnumTypeError";
    "EnumField"; "EnumChoiceField" ].

(** Evaluating a name that is neither local nor a builtin. *)
Definition load_global (name : string) : result unit :=
  if bool_decide (name ∈ module_globals) then Ok tt
  else Raise (NameError ("name '" +:+ name +:+ "' is not defined")).

(** [EnumChoiceField.prepare_value] *)
Definition EnumChoiceField_prepare_value (self : EnumChoiceField) (value : pyval) : pyval :=
  match value with
  | PyEnum m => PyPrim (m_value m)
  | _ => value
  end.

Section FormCollaborators.

(** [forms.ChoiceField.to_python], reached through [super()]. *)
Variable ChoiceField_to_python : EnumChoiceField -> pyval -> result pyval.

(** What [uuid.UUID] does once the name [uuid] has been resolved. *)
Variable uuid_UUID : pyval -> result pyval.

(** [EnumChoiceField.to_python] *)
Definition EnumChoiceField_to_python (self : EnumChoiceField) (value : pyval)
  : result pyval :=
  value <- ChoiceField_to_python self value ;;
  if bool_decide (value ∈ empty_values self) then Ok PyNone
  else if negb (isinstance_Enum value) then
    match (_ <- load_global "uuid" ;; uuid_UUID value) with
    | Ok value => Ok value
    | Raise (ValueError _) =>
        msg <- getitem (error_messages self) "invalid" ;;
        Raise (ValidationError {| message := msg; code := Some "invalid"; params := None |})
    | Raise e => Raise e
    end
  else Ok value.

End FormCollaborators.

(** ** Migrations and forms: [deconstruct], [formfield] *)

(** What a keyword argument may hold here: a class or a value. *)
Inductive pyobj : Type :=
  | ObjClass (c : PyClass)
  | ObjVal (v : pyval).

(** [del d[key]] *)
Definition delitem {V : Type} (d : gmap string V) (key : string) : result (gmap string V) :=
  match d !! key with
  | Some _ => Ok (delete key d)
  | None => Raise (KeyError key)
  end.

(** [for k in keys: del d[k]] *)
Fixpoint del_each {V : Type} (keys : list string) (d : gmap string V)
  : result (gmap string V) :=
  match keys with
  | [] => Ok d
  | k :: rest =>
      d' <- delitem d k ;;
      del_each rest d'
  end.

(** [EnumField.get_internal_type] *)
Definition get_internal_type (self : EnumField) : string := "EnumField".

(** The keyword defaults that [EnumField.formfield] starts from. *)
Definition formfield_defaults (self : EnumField) : gmap string pyobj :=
  {[ "form_class" := ObjClass (PlainCls "EnumChoiceField");
     "enum_class" := ObjClass (EnumCls (enum_class self)) ]}.

Section FieldCollaborators.

(** [Field.deconstruct], reached through [super()]: name, path, args and
    kwargs of the field. *)
Variable Field_deconstruct :
  EnumField -> result (string * string * list pyobj * gmap string pyobj).

(** [Field.formfield], reached through [super()], and the type of what it
    builds. *)
Variable FormField : Type.
Variable Field_formfield : EnumField -> gmap string pyobj -> result FormField.

(** [EnumField.deconstruct] *)
Definition deconstruct (self : EnumField)
  : result (string * string * list pyobj * gmap string pyobj) :=
  r <- Field_deconstruct self ;;
  let '(name, path, args, kwargs) := r in
  kwargs <- del_each ["enum_class"; "field_class"] kwargs ;;
  Ok (name, path, args, kwargs).

(** [EnumField.formfield]: [defaults.update(kwargs)] lets the caller's
    keywords replace the defaults. *)
Definition formfield (self : EnumField) (kwargs : gmap string pyobj) : result FormField :=
  let defaults := kwargs ∪ formfield_defaults self in
  Field_formfield self defaults.

End FieldCollaborators.

(** ** Sample data

    The enumeration [Color] with [RED = 1], [GREEN = 2], [BLUE = 3], a
    second enumeration [Shape], and stand-ins for the collaborators. *)

Definition Color : EnumClass :=
  {| cls_name := "Color";
     cls_decl := [("RED", PInt 1); ("GREEN", PInt 2); ("BLUE", PInt 3)] |}.

Definition RED : Member := {| m_cls := Color; m_name := "RED"; m_value := PInt 1 |}.
Definition GREEN : Member := {| m_cls := Color; m_name := "GREEN"; m_value := PInt 2 |}.
Definition BLUE : Member := {| m_cls := Color; m_name := "BLUE"; m_value := PInt 3 |}.

Definition Shape : EnumClass :=
  {| cls_name := "Shape";
     cls_decl := [("CIRCLE", PInt 1); ("SQUARE", PInt 2)] |}.

Definition CIRCLE : Member := {| m_cls := Shape; m_name := "CIRCLE"; m_value := PInt 1 |}.

(** A subclass of [Field] with one message of its own. *)
Definition PositiveSmallIntegerField : FieldClass :=
  {| fc_name := "PositiveSmallIntegerField";
     fc_is_Field := true;
     fc_default_error_messages := {[ "invalid" := "'%(value)s' value must be an integer." ]} |}.

(** [Field.__repr__] for a field not yet attached to a model. *)
Definition sample_Field_repr (self : EnumField) : string :=
  "<django.db.models.fields.enum_field.EnumField>".

(** [forms.ChoiceField.to_python]: the empty string for an empty value,
    the text of anything else. *)
Definition sample_ChoiceField_to_python (self : EnumChoiceField) (value : pyval)
  : result pyval :=
  if bool_decide (value ∈ empty_values self) then Ok (PyPrim (PStr ""))
  else Ok (PyPrim (PStr (arg_str (arg_of_val value)))).

(** [Field] as Django ships it binds no [validate_enum_value]. *)
Definition Field_validate_enum_value_unbound
  : option (EnumField -> pyval -> result pyval) := None.

Definition kwargs_of (choices : option pycollection) (null : bool) : Kwargs :=
  {| kw_choices := choices; kw_blank := None; kw_null := null |}.

(** [EnumField(Color)] and [EnumField(Color, null=True)], built directly. *)
Definition color_field (null : bool) : EnumField :=
  {| enum_class := Color;
     field_class := PositiveSmallIntegerField;
     default_error_messages :=
       EnumField_default_error_messages ∪ fc_default_error_messages PositiveSmallIntegerField;
     choices := Some [(PInt 1, RED); (PInt 2, GREEN); (PInt 3, BLUE)];
     null := null;
     blank := None |}.

Definition color_form_field : EnumChoiceField :=
  {| ecf_enum_class := Color;
     ecf_choices := [(PInt 1, RED); (PInt 2, GREEN); (PInt 3, BLUE)];
     error_messages := {[ "invalid" := "Enter a valid value." ]};
     empty_values := [PyNone; PyPrim (PStr "")] |}.

(** [EnumField(Color, choices=[Color.RED, Color.BLUE])] *)
Definition red_blue_field : EnumField :=
  {| enum_class := Color;
     field_class := PositiveSmallIntegerField;
     default_error_messages :=
       EnumField_default_error_messages ∪ fc_default_error_messages PositiveSmallIntegerField;
     choices := Some [(PInt 1, RED); (PInt 3, BLUE)];
     null := false;
     blank := None |}.

(** A class that is not a subclass of [Field]. *)
Definition PlainObject : FieldClass :=
  {| fc_name := "object"; fc_is_Field := false; fc_default_error_messages := ∅ |}.

(** A [Field.deconstruct] that reports the two constructor arguments among
    its keywords, and one that reports only [null]. *)
Definition sample_deconstruct_full (self : EnumField)
  : result (string * string * list pyobj * gmap string pyobj) :=
  Ok ("color", "django.db.models.fields.enum_field.EnumField", [],
      {[ "enum_class" := ObjClass (EnumCls (enum_class self));
         "field_class" := ObjClass (PlainCls "PositiveSmallIntegerField");
         "null" := ObjVal (PyPrim (PInt 1)) ]}).

Definition sample_deconstruct_plain (self : EnumField)
  : result (string * string * list pyobj * gmap string pyobj) :=
  Ok ("color", "django.db.models.fields.enum_field.EnumField", [],
      {[ "null" := ObjVal (PyPrim (PInt 1)) ]}).

(** * Properties *)

Example format_demo :
  format "%r is not a valid %s" [arg_of_val (PyPrim (PInt 9)); arg_of_text "Color"]
  = Ok "9 is not a valid Color".
Proof. vm_compute. reflexivity. Qed.

Example members_Color : members Color = [RED; GREEN; BLUE].
Proof. reflexivity. Qed.

Example init_Color :
  EnumField_init true (EnumCls Color) PositiveSmallIntegerField (kwargs_of None false)
  = Ok (color_field false).
Proof. vm_compute. reflexivity. Qed.

(** ** Text *)

Lemma prefix_app (n b : string) : String.prefix n (n +:+ b) = true.
Proof.
  induction n as [|c n IH].
  - by destruct b.
  - change (String.prefix (String c n) (String c (n +:+ b)) = true).
    simpl. destruct (ascii_dec c c); [exact IH | congruence].
Qed.

Lemma is_substring_prefix (n h : string) :
  String.prefix n h = true -> is_substring n h = true.
Proof. intros H. destruct h; simpl in *; rewrite H; reflexivity. Qed.

Lemma is_substring_app (n a b : string) : is_substring n (a +:+ n +:+ b) = true.
Proof.
  induction a as [|c a IH].
  - change (is_substring n (n +:+ b) = true).
    apply is_substring_prefix, prefix_app.
  - change (is_substring n (String c (a +:+ n +:+ b)) = true).
    simpl. rewrite IH. apply orb_true_r.
Qed.

Lemma is_substring_skip (n a h : string) :
  is_substring n h = true -> is_substring n (a +:+ h) = true.
Proof.
  intros H. induction a as [|c a IH]; [exact H|].
  change (is_substring n (String c (a +:+ h)) = true).
  simpl. rewrite IH. apply orb_true_r.
Qed.

Lemma format_not_a_valid (a b : fmt_arg) :
  format "%r is not a valid %s" [a; b]
  = Ok (arg_repr a +:+ " is not a valid " +:+ arg_str b +:+ "").
Proof. reflexivity. Qed.

Lemma format_invalid_value (a b : fmt_arg) :
  format "%r is not a valid value for %r enum" [a; b]
  = Ok (arg_repr a +:+ " is not a valid value for " +:+ arg_repr b +:+ " enum").
Proof. reflexivity. Qed.

Lemma format_invalid_type (a b c : fmt_arg) :
  format "%r is configured for %r enum but received %r" [a; b; c]
  = Ok (arg_repr a +:+ " is configured for " +:+ arg_repr b
        +:+ " enum but received " +:+ arg_repr c +:+ "").
Proof. reflexivity. Qed.

(** ** The enumeration library *)

Lemma canonical_decl_elem decl : forall seen d,
  d ∈ canonical_decl seen decl -> (d.2 ∉ seen) /\ (d ∈ decl).
Proof.
  induction decl as [|d0 rest IH]; intros seen d; simpl.
  - intros H. by apply elem_of_nil in H.
  - case_bool_decide as Hseen.
    + intros H. destruct (IH _ _ H) as [Hn Hin]. split; [done|]. by right.
    + intros H. apply elem_of_cons in H as [->|H].
      * split; [done|]. by left.
      * destruct (IH _ _ H) as [Hn Hin]. split; [|by right].
        intros Hs. apply Hn. by right.
Qed.

Lemma canonical_decl_NoDup decl : forall seen, NoDup ((canonical_decl seen decl).*2).
Proof.
  induction decl as [|d0 rest IH]; intros seen; simpl.
  - constructor.
  - case_bool_decide as Hseen; [apply IH|].
    rewrite fmap_cons. constructor; [|apply IH].
    intros Hin. apply list_elem_of_fmap in Hin as (d & Heq & Hd).
    apply canonical_decl_elem in Hd as [Hn _].
    apply Hn. rewrite Heq. by left.
Qed.

Lemma canonical_decl_sublist decl : forall seen, sublist (canonical_decl seen decl) decl.
Proof.
  induction decl as [|d0 rest IH]; intros seen; simpl.
  - constructor.
  - case_bool_decide; [apply sublist_cons|apply sublist_skip]; apply IH.
Qed.

Lemma members_values (cls : EnumClass) :
  m_value <$> members cls = (canonical_decl [] (cls_decl cls)).*2.
Proof. unfold members. rewrite <- list_fmap_compose. reflexivity. Qed.

(** No two members of a class carry the same value. *)
Lemma members_NoDup_values (cls : EnumClass) : NoDup (m_value <$> members cls).
Proof. rewrite members_values. apply canonical_decl_NoDup. Qed.

Lemma members_cls (cls : EnumClass) (m : Member) : m ∈ members cls -> m_cls m = cls.
Proof.
  unfold members. intros H.
  apply list_elem_of_fmap in H as (d & -> & _). reflexivity.
Qed.

(** The members are the declared lines, in the order of the class body. *)
Lemma members_declaration_order (cls : EnumClass) :
  sublist ((fun m => (m_name m, m_value m)) <$> members cls) (cls_decl cls).
Proof.
  unfold members. rewrite <- list_fmap_compose.
  rewrite (list_fmap_ext _ id); [|by intros ? [??] _].
  rewrite list_fmap_id. apply canonical_decl_sublist.
Qed.

Lemma find_by_value (l : list Member) (m : Member) :
  NoDup (m_value <$> l) -> m ∈ l ->
  List.find (fun x => bool_decide (m_value x = m_value m)) l = Some m.
Proof.
  induction l as [|x l IH]; intros Hnd Hin.
  - by apply elem_of_nil in Hin.
  - rewrite fmap_cons in Hnd. apply NoDup_cons in Hnd as [Hx Hnd].
    simpl. apply elem_of_cons in Hin as [->|Hin].
    + by rewrite bool_decide_eq_true_2.
    + rewrite bool_decide_eq_false_2; [by apply IH|].
      intros Heq. apply Hx. rewrite Heq. by apply list_elem_of_fmap_2.
Qed.

Lemma value2member_member (cls : EnumClass) (m : Member) :
  m ∈ members cls -> value2member cls (m_value m) = Some m.
Proof. intros H. apply find_by_value; [apply members_NoDup_values | exact H]. Qed.

Lemma value2member_Some (cls : EnumClass) (p : prim) (m : Member) :
  value2member cls p = Some m -> m ∈ members cls /\ m_value m = p.
Proof.
  unfold value2member. intros H. apply List.find_some in H as [Hin Hv].
  split; [by apply list_elem_of_In | by apply bool_decide_eq_true in Hv].
Qed.

(** Whatever [cls(value)] raises is a [ValueError] whose text contains
    "is not a valid". *)
Lemma enum_call_Raise (cls : EnumClass) (value : pyval) (e : exn) :
  enum_call cls value = Raise e ->
  exists msg, e = ValueError msg /\ is_substring "is not a valid" msg = true.
Proof.
  assert (Hnv : forall A, @not_a_valid A cls value = Raise e ->
            exists msg, e = ValueError msg /\ is_substring "is not a valid" msg = true).
  { intros A. unfold not_a_valid. rewrite format_not_a_valid. simpl.
    intros [= <-]. eexists; split; [reflexivity|].
    apply is_substring_skip.
    apply (is_substring_app "is not a valid" " " (" " +:+ _)). }
  destruct value as [|p|m]; simpl.
  - apply Hnv.
  - destruct (value2member cls p); [discriminate | apply Hnv].
  - destruct (decide (m_cls m = cls)); [discriminate | apply Hnv].
Qed.

Lemma enum_call_prim_Ok (cls : EnumClass) (p : prim) (m : Member) :
  enum_call cls (PyPrim p) = Ok m <-> value2member cls p = Some m.
Proof.
  simpl. destruct (value2member cls p) as [m'|]; unfold not_a_valid;
    rewrite ?format_not_a_valid; simpl; split; congruence.
Qed.

(** ** Construction *)

Lemma merged_invalid_value (d : gmap string string) :
  (EnumField_default_error_messages ∪ d) !! "invalid_value"
  = Some "%r is not a valid value for %r enum".
Proof. apply lookup_union_Some_l. reflexivity. Qed.

Lemma merged_invalid_type (d : gmap string string) :
  (EnumField_default_error_messages ∪ d) !! "invalid_type"
  = Some "%r is configured for %r enum but received %r".
Proof. apply lookup_union_Some_l. reflexivity. Qed.

(** The messages of the underlying field class survive the merge under
    every other key. *)
Lemma merged_other (d : gmap string string) (key : string) :
  key <> "invalid_value" -> key <> "invalid_type" ->
  (EnumField_default_error_messages ∪ d) !! key = d !! key.
Proof.
  intros H1 H2. apply lookup_union_r.
  unfold EnumField_default_error_messages.
  rewrite lookup_insert_ne by congruence.
  apply lookup_singleton_ne. congruence.
Qed.

(** What a successful construction establishes. *)
Lemma EnumField_init_Ok (enum_module : bool) (ec : PyClass) (fc : FieldClass)
    (kw : Kwargs) (f : EnumField) :
  EnumField_init enum_module ec fc kw = Ok f ->
  enum_module = true /\ ec = EnumCls (enum_class f) /\ fc_is_Field fc = true /\
  field_class f = fc /\
  default_error_messages f
    = EnumField_default_error_messages ∪ fc_default_error_messages fc /\
  prepare_choices (enum_class f) (kw_choices kw) (kw_blank kw) = Ok (choices f) /\
  null f = kw_null kw.
Proof.
  unfold EnumField_init, validate_enum_class, validate_field_class.
  destruct enum_module; simpl; [|discriminate].
  destruct ec as [c|n]; simpl; [|discriminate].
  destruct (fc_is_Field fc) eqn:Hfc; simpl; [|discriminate].
  destruct (prepare_choices c (kw_choices kw) (kw_blank kw)) as [ch|e] eqn:Hch;
    simpl; [|discriminate].
  intros [= <-]. simpl. rewrite Hch. repeat split; reflexivity.
Qed.

(** Construction succeeds as soon as its three checks pass. *)
Lemma EnumField_init_total (c : EnumClass) (fc : FieldClass) (kw : Kwargs)
    (ch : option (list (prim * Member))) :
  fc_is_Field fc = true ->
  prepare_choices c (kw_choices kw) (kw_blank kw) = Ok ch ->
  EnumField_init true (EnumCls c) fc kw
  = Ok {| enum_class := c; field_class := fc;
          default_error_messages :=
            EnumField_default_error_messages ∪ fc_default_error_messages fc;
          choices := ch; null := kw_null kw; blank := kw_blank kw |}.
Proof.
  intros Hfc Hch. unfold EnumField_init, validate_field_class. simpl.
  rewrite Hfc. simpl. rewrite Hch. reflexivity.
Qed.

(** ** The coercer *)

Lemma validate_value_None (Field_repr : EnumField -> string) (f : EnumField) :
  validate_value Field_repr f PyNone
  = if null f then Ok PyNone
    else Raise (InvalidEnumValueError {| message := ""; code := None; params := None |}).
Proof. unfold validate_value. simpl. by destruct (null f). Qed.

Lemma validate_value_own (Field_repr : EnumField -> string) (f : EnumField) (m : Member) :
  m_cls m = enum_class f -> validate_value Field_repr f (PyEnum m) = Ok (PyEnum m).
Proof.
  intros H. unfold validate_value. simpl.
  by rewrite bool_decide_eq_true_2.
Qed.

Lemma validate_value_prim (Field_repr : EnumField -> string) (f : EnumField)
    (p : prim) (m : Member) :
  validate_value Field_repr f (PyPrim p) = Ok (PyEnum m)
  <-> value2member (enum_class f) p = Some m.
Proof.
  unfold validate_value. simpl.
  destruct (value2member (enum_class f) p) as [m'|] eqn:Hv.
  - split; congruence.
  - unfold not_a_valid. rewrite format_not_a_valid. simpl.
    destruct (is_substring _ _); simpl.
    + destruct (getitem _ _); simpl; [destruct (format _ _)|]; simpl; split; discriminate.
    + split; discriminate.
Qed.

(** A primitive that names no member: the error built on a constructed
    field. *)
Lemma validate_value_prim_miss (Field_repr : EnumField -> string) (f : EnumField)
    (d : gmap string string) (p : prim) :
  default_error_messages f = EnumField_default_error_messages ∪ d ->
  value2member (enum_class f) p = None ->
  validate_value Field_repr f (PyPrim p)
  = Raise (InvalidEnumValueError
             {| message := repr_prim p +:+ " is not a valid value for "
                           +:+ repr_class (EnumCls (enum_class f)) +:+ " enum";
                code := Some "invalid_value";
                params := Some {[ "value" := PyPrim p ]} |}).
Proof.
  intros Hd Hv. unfold validate_value. simpl. rewrite Hv.
  unfold not_a_valid. rewrite format_not_a_valid. simpl.
  rewrite is_substring_skip
    by apply (is_substring_app "is not a valid" " " (" " +:+ _)).
  unfold getitem. rewrite Hd, merged_invalid_value. simpl.
  reflexivity.
Qed.

(** A member of another enumeration: the error built on a constructed
    field. *)
Lemma validate_value_foreign (Field_repr : EnumField -> string) (f : EnumField)
    (d : gmap string string) (m : Member) :
  default_error_messages f = EnumField_default_error_messages ∪ d ->
  m_cls m <> enum_class f ->
  validate_value Field_repr f (PyEnum m)
  = Raise (InvalidEnumTypeError
             {| message := Field_repr f +:+ " is configured for "
                           +:+ repr_class (EnumCls (enum_class f))
                           +:+ " enum but received "
                           +:+ repr_class (EnumCls (m_cls m)) +:+ "";
                code := Some "invalid_type";
                params := Some {[ "value" := PyEnum m ]} |}).
Proof.
  intros Hd Hm. unfold validate_value. simpl.
  rewrite bool_decide_eq_false_2 by exact Hm. simpl.
  unfold getitem. rewrite Hd, merged_invalid_type. simpl.
  reflexivity.
Qed.

(** A failed coercion of anything but [None] carries a code, the raw value
    under ["value"], and a message naming the enumeration. *)
Lemma validate_value_failure_payload (Field_repr : EnumField -> string)
    (f : EnumField) (d : gmap string string) (value : pyval) (e : exn) :
  default_error_messages f = EnumField_default_error_messages ∪ d ->
  value <> PyNone ->
  validate_value Field_repr f value = Raise e ->
  exists a, (e = InvalidEnumValueError a /\ code a = Some "invalid_value"
             \/ e = InvalidEnumTypeError a /\ code a = Some "invalid_type")
            /\ params a = Some {[ "value" := value ]}
            /\ is_substring (repr_class (EnumCls (enum_class f))) (message a) = true.
Proof.
  intros Hd Hv. destruct value as [|p|m]; [done| |].
  - destruct (value2member (enum_class f) p) as [m|] eqn:Hm.
    + apply (validate_value_prim Field_repr) in Hm. rewrite Hm. discriminate.
    + rewrite (validate_value_prim_miss _ _ d) by assumption.
      intros [= <-]. eexists. split; [left; split; reflexivity|].
      split; [reflexivity|]. simpl.
      apply is_substring_skip.
      apply (is_substring_app _ " is not a valid value for " " enum").
  - destruct (decide (m_cls m = enum_class f)) as [Heq|Hne].
    + rewrite validate_value_own by assumption. discriminate.
    + rewrite (validate_value_foreign _ _ d) by assumption.
      intros [= <-]. eexists. split; [right; split; reflexivity|].
      split; [reflexivity|]. simpl.
      apply is_substring_skip.
      apply (is_substring_app _ " is configured for ").
Qed.

(** ** The storage-facing methods *)

(** Were [validate_enum_value] bound to the coercer, the three methods
    would return what the coercer returns: the member itself, not its
    primitive. *)
Lemma methods_bound_to_coercer (Field_repr : EnumField -> string)
    (f : EnumField) (value : pyval) :
  let bound := Some (validate_value Field_repr) in
  get_db_prep_value bound f value = validate_value Field_repr f value /\
  from_db_value bound f value = validate_value Field_repr f value /\
  to_python bound f value = validate_value Field_repr f value.
Proof.
  unfold get_db_prep_value, from_db_value, to_python, self_validate_enum_value.
  simpl. destruct (validate_value Field_repr f value) as [v|[]]; auto.
Qed.

(** ** Choice lists *)

Lemma map_result_Ok {A B : Type} (f : A -> result B) (xs : list A) (ys : list B) :
  map_result f xs = Ok ys <-> Forall2 (fun x y => f x = Ok y) xs ys.
Proof.
  revert ys. induction xs as [|x xs IH]; intros ys; simpl.
  - split.
    + intros [= <-]. constructor.
    + intros H. by inversion H.
  - destruct (f x) as [y|e] eqn:Hx; simpl.
    + destruct (map_result f xs) as [ys'|e] eqn:Hxs; simpl.
      * split.
        -- intros [= <-]. constructor; [done|]. by apply IH.
        -- intros H. inversion H as [|? y' ? ys'' Hy Hys]; subst.
           apply IH in Hys. congruence.
      * split; [discriminate|].
        intros H. inversion H as [|? y' ? ys'' Hy Hys]; subst.
        apply IH in Hys. discriminate.
    + split; [discriminate|].
      intros H. inversion H; subst. congruence.
Qed.

(** One element that does not convert makes the whole loop raise, with
    the exception of the first such element. *)
Lemma map_result_Raise {A B : Type} (f : A -> result B) (xs : list A) (x : A) :
  x ∈ xs -> (forall y, f x <> Ok y) ->
  exists x' e, x' ∈ xs /\ f x' = Raise e /\ map_result f xs = Raise e.
Proof.
  intros Hin Hx. induction xs as [|x0 xs IH]; [by apply elem_of_nil in Hin|].
  simpl. destruct (f x0) as [y0|e0] eqn:H0; simpl.
  - apply elem_of_cons in Hin as [->|Hin]; [by destruct (Hx y0)|].
    destruct (IH Hin) as (x' & e & Hx' & Hfx' & Hm).
    exists x', e. rewrite Hm. simpl. repeat split; [by right|done].
  - exists x0, e0. repeat split; [by left|done].
Qed.

Lemma prepare_choices_sequence (ec : EnumClass) (c : pycollection)
    (blank : option bool) (ms : list Member) :
  is_list_tuple_set c = true ->
  Forall2 (fun x m => enum_call ec x = Ok m) (items c) ms ->
  prepare_choices ec (Some c) blank = Ok (Some (choice_option <$> ms)).
Proof.
  intros Hc Hms. unfold prepare_choices. rewrite Hc.
  apply map_result_Ok in Hms. rewrite Hms. reflexivity.
Qed.

(** * The claims *)

(** C1.  [get_db_prep_value] on the field over [Color], not nullable.
    The method calls [self.validate_enum_value], a name neither this class
    nor [Field] binds, so each of the four calls of the scenario ends in
    [AttributeError]: [Color.RED] does not come back as [1], [2] does not
    come back as [2], and [9] and [None] do not reach the coercer's
    [InvalidEnumValueError].  With the name bound to the coercer the method
    still returns the member itself ([Color.RED], [Color.GREEN]) and never
    its primitive. *)
Theorem C1_to_storage_color :
  let unbound := AttributeError "'EnumField' object has no attribute 'validate_enum_value'" in
  let field := color_field false in
  let bound := Some (validate_value sample_Field_repr) in
  get_db_prep_value Field_validate_enum_value_unbound field (PyEnum RED) = Raise unbound /\
  get_db_prep_value Field_validate_enum_value_unbound field (PyPrim (PInt 2)) = Raise unbound /\
  get_db_prep_value Field_validate_enum_value_unbound field (PyPrim (PInt 9)) = Raise unbound /\
  get_db_prep_value Field_validate_enum_value_unbound field PyNone = Raise unbound /\
  get_db_prep_value bound field (PyEnum RED) = Ok (PyEnum RED) /\
  get_db_prep_value bound field (PyPrim (PInt 2)) = Ok (PyEnum GREEN).
Proof. repeat split; vm_compute; reflexivity. Qed.

(** C2.  [from_db_value] decodes nothing: whatever the field and the stored
    primitive, the call [self.validate_enum_value] raises [AttributeError]
    before any lookup. *)
Theorem C2_from_storage_unbound (f : EnumField) (value : pyval) :
  from_db_value Field_validate_enum_value_unbound f value
  = Raise (AttributeError "'EnumField' object has no attribute 'validate_enum_value'").
Proof. reflexivity. Qed.

(** [EnumChoiceField.to_python] never looks a primitive up: a value that
    [forms.ChoiceField.to_python] returns non-empty and not as a member
    reaches the expression [uuid.UUID(value)], and the module binds no
    name [uuid]. *)
Lemma EnumChoiceField_to_python_primitive
    (ChoiceField_to_python : EnumChoiceField -> pyval -> result pyval)
    (uuid_UUID : pyval -> result pyval)
    (self : EnumChoiceField) (value value' : pyval) :
  ChoiceField_to_python self value = Ok value' ->
  value' ∉ empty_values self ->
  isinstance_Enum value' = false ->
  EnumChoiceField_to_python ChoiceField_to_python uuid_UUID self value
  = Raise (NameError "name 'uuid' is not defined").
Proof.
  intros Hsuper Hempty Henum. unfold EnumChoiceField_to_python.
  rewrite Hsuper. simpl.
  rewrite bool_decide_eq_false_2 by exact Hempty.
  rewrite Henum. reflexivity.
Qed.

(** C3.  The form round trip on [Color.RED]: [prepare_value] gives [1],
    and [to_python] of [1] raises [NameError] instead of returning
    [Color.RED], whatever [uuid.UUID] would do. *)
Theorem C3_form_round_trip_color (uuid_UUID : pyval -> result pyval) :
  EnumChoiceField_prepare_value color_form_field (PyEnum RED) = PyPrim (PInt 1) /\
  EnumChoiceField_to_python sample_ChoiceField_to_python uuid_UUID color_form_field
    (EnumChoiceField_prepare_value color_form_field (PyEnum RED))
  = Raise (NameError "name 'uuid' is not defined").
Proof. split; reflexivity. Qed.

(** C4.  Absence on a field that is not nullable: the error is raised as
    [InvalidEnumValueError("")], with an empty message, no code and no
    params, so it names neither the value nor the enumeration. *)
Theorem C4_absence_error_payload (Field_repr : EnumField -> string) :
  validate_value Field_repr (color_field false) PyNone
  = Raise (InvalidEnumValueError {| message := ""; code := None; params := None |}).
Proof. reflexivity. Qed.

(** C5.  Absence: the coercer returns [None] on a nullable field and raises
    [InvalidEnumValueError] on one that is not; but [get_db_prep_value] and
    [from_db_value] of [None] on the nullable field raise [AttributeError]
    and return nothing. *)
Theorem C5_absence_through_storage (Field_repr : EnumField -> string) :
  let unbound := AttributeError "'EnumField' object has no attribute 'validate_enum_value'" in
  validate_value Field_repr (color_field true) PyNone = Ok PyNone /\
  validate_value Field_repr (color_field false) PyNone
  = Raise (InvalidEnumValueError {| message := ""; code := None; params := None |}) /\
  get_db_prep_value Field_validate_enum_value_unbound (color_field true) PyNone = Raise unbound /\
  from_db_value Field_validate_enum_value_unbound (color_field true) PyNone = Raise unbound.
Proof. repeat split; reflexivity. Qed.

(** C6.  On a constructed field, a member of another enumeration is
    refused with [InvalidEnumTypeError], code ["invalid_type"], and a
    member of the field's own enumeration is returned as it is. *)
Theorem C6_foreign_member_invalid_type (enum_module : bool)
    (Field_repr : EnumField -> string) (ec : PyClass) (fc : FieldClass)
    (kw : Kwargs) (f : EnumField) (m : Member) :
  EnumField_init enum_module ec fc kw = Ok f ->
  (m_cls m <> enum_class f ->
   validate_value Field_repr f (PyEnum m)
   = Raise (InvalidEnumTypeError
              {| message := Field_repr f +:+ " is configured for "
                            +:+ repr_class (EnumCls (enum_class f))
                            +:+ " enum but received "
                            +:+ repr_class (EnumCls (m_cls m)) +:+ "";
                 code := Some "invalid_type";
                 params := Some {[ "value" := PyEnum m ]} |}))
  /\ (m_cls m = enum_class f ->
      validate_value Field_repr f (PyEnum m) = Ok (PyEnum m)).
Proof.
  intros Hinit. apply EnumField_init_Ok in Hinit as (_ & _ & _ & _ & Hd & _).
  split.
  - intros Hne. by apply (validate_value_foreign _ _ _ _ Hd).
  - apply validate_value_own.
Qed.

Lemma C6_foreign_member_invalid_type_witness :
  EnumField_init true (EnumCls Color) PositiveSmallIntegerField (kwargs_of None false)
  = Ok (color_field false) /\
  validate_value sample_Field_repr (color_field false) (PyEnum CIRCLE)
  = Raise (InvalidEnumTypeError
             {| message := "<django.db.models.fields.enum_field.EnumField> is configured for <enum 'Color'> enum but received <enum 'Shape'>";
                code := Some "invalid_type";
                params := Some {[ "value" := PyEnum CIRCLE ]} |}) /\
  validate_value sample_Field_repr (color_field false) (PyEnum RED) = Ok (PyEnum RED).
Proof.
  assert (Hinit : EnumField_init true (EnumCls Color) PositiveSmallIntegerField
                    (kwargs_of None false) = Ok (color_field false)).
  { vm_compute. reflexivity. }
  split; [exact Hinit|]. split.
  - apply (C6_foreign_member_invalid_type true sample_Field_repr (EnumCls Color)
             PositiveSmallIntegerField (kwargs_of None false) (color_field false)
             CIRCLE Hinit).
    discriminate.
  - apply (C6_foreign_member_invalid_type true sample_Field_repr (EnumCls Color)
             PositiveSmallIntegerField (kwargs_of None false) (color_field false)
             RED Hinit).
    reflexivity.
Defined.



(** C8, as stated, fails: [choices] given as an iterator over [9], which
    [Color] does not accept, leaves construction successful, and the field
    carries no choices. *)
Lemma C8_iterator_choices_unchecked :
  enum_call Color (PyPrim (PInt 9)) = Raise (ValueError "9 is not a valid Color") /\
  EnumField_init true (EnumCls Color) PositiveSmallIntegerField
    (kwargs_of (Some (PyIterator [PyPrim (PInt 9)])) false)
  = Ok {| enum_class := Color;
          field_class := PositiveSmallIntegerField;
          default_error_messages :=
            EnumField_default_error_messages
              ∪ fc_default_error_messages PositiveSmallIntegerField;
          choices := None;
          null := false;
          blank := None |}.
Proof. split; vm_compute; reflexivity. Qed.

(** C8, amended.  When [choices] is a list, tuple or set holding a value
    the enumeration does not accept, construction raises and returns no
    field; with a valid enumeration and field class the exception is the
    [ValueError] of the enumeration lookup on an element of [choices]. *)
Theorem C8_invalid_choice_in_sequence (enum_module : bool) (ec : EnumClass)
    (fc : FieldClass) (kw : Kwargs) (c : pycollection) (x : pyval) :
  kw_choices kw = Some c ->
  is_list_tuple_set c = true ->
  x ∈ items c ->
  (forall m, enum_call ec x <> Ok m) ->
  (exists e, EnumField_init enum_module (EnumCls ec) fc kw = Raise e) /\
  (enum_module = true -> fc_is_Field fc = true ->
   exists y msg, y ∈ items c /\ enum_call ec y = Raise (ValueError msg) /\
     EnumField_init enum_module (EnumCls ec) fc kw = Raise (ValueError msg)).
Proof.
  intros Hkw Hc Hx Hbad.
  destruct (map_result_Raise (enum_call ec) (items c) x Hx Hbad)
    as (y & e & Hy & Hey & Hmap).
  destruct (enum_call_Raise _ _ _ Hey) as (msg & -> & _).
  assert (Hinit : enum_module = true -> fc_is_Field fc = true ->
            EnumField_init enum_module (EnumCls ec) fc kw = Raise (ValueError msg)).
  { intros -> Hfc. unfold EnumField_init, validate_field_class, prepare_choices.
    simpl. rewrite Hfc. simpl. rewrite Hkw, Hc, Hmap. reflexivity. }
  split.
  - destruct enum_module; [|by eexists].
    destruct (fc_is_Field fc) eqn:Hfc; [eexists; by apply Hinit|].
    unfold EnumField_init, validate_field_class. simpl. rewrite Hfc. by eexists.
  - intros Hem Hfc. exists y, msg. auto.
Qed.

Lemma C8_invalid_choice_in_sequence_witness :
  (exists e, EnumField_init true (EnumCls Color) PositiveSmallIntegerField
               (kwargs_of (Some (PyList [PyEnum RED; PyPrim (PInt 9)])) false) = Raise e) /\
  (true = true -> fc_is_Field PositiveSmallIntegerField = true ->
   exists y msg, y ∈ items (PyList [PyEnum RED; PyPrim (PInt 9)]) /\
     enum_call Color y = Raise (ValueError msg) /\
     EnumField_init true (EnumCls Color) PositiveSmallIntegerField
       (kwargs_of (Some (PyList [PyEnum RED; PyPrim (PInt 9)])) false)
     = Raise (ValueError msg)).
Proof.
  apply (C8_invalid_choice_in_sequence true Color PositiveSmallIntegerField
           (kwargs_of (Some (PyList [PyEnum RED; PyPrim (PInt 9)])) false)
           (PyList [PyEnum RED; PyPrim (PInt 9)]) (PyPrim (PInt 9))).
  - reflexivity.
  - reflexivity.
  - simpl. right. left.
  - intros m. vm_compute. discriminate.
Defined.

(** C9.  The choice list of a constructed field pairs each member with its
    value.  With no [choices] it runs over all members of the enumeration,
    in the order of the class body.  With [choices] given, whatever list
    the field carries runs over the members the elements denote, in the
    order of the elements; for a list, tuple or set the field does carry
    one. *)
Theorem C9_choice_list_order (enum_module : bool) (ec : EnumClass)
    (fc : FieldClass) (kw : Kwargs) (f : EnumField) :
  EnumField_init enum_module (EnumCls ec) fc kw = Ok f ->
  (kw_choices kw = None ->
   choices f = Some (choice_option <$> members ec) /\
   sublist ((fun m => (m_name m, m_value m)) <$> members ec) (cls_decl ec)) /\
  (forall c l, kw_choices kw = Some c -> choices f = Some l ->
   exists ms, Forall2 (fun x m => enum_call ec x = Ok m) (items c) ms /\
              l = choice_option <$> ms) /\
  (forall c, kw_choices kw = Some c -> is_list_tuple_set c = true ->
   exists l, choices f = Some l).
Proof.
  intros Hinit.
  apply EnumField_init_Ok in Hinit as (_ & [= ->] & _ & _ & _ & Hch & _).
  split; [|split].
  - intros Hkw. rewrite Hkw in Hch. simpl in Hch.
    split; [by injection Hch as <- | apply members_declaration_order].
  - intros c l Hkw Hl. rewrite Hkw in Hch. unfold prepare_choices in Hch.
    destruct (is_list_tuple_set c).
    + destruct (map_result (enum_call (enum_class f)) (items c)) as [ms|e] eqn:Hms;
        simpl in Hch; [|discriminate].
      exists ms. split; [by apply map_result_Ok|].
      injection Hch as Hch. rewrite Hl in Hch. by injection Hch as <-.
    + injection Hch as Hch. congruence.
  - intros c Hkw Hc. rewrite Hkw in Hch. unfold prepare_choices in Hch.
    rewrite Hc in Hch.
    destruct (map_result (enum_call (enum_class f)) (items c)) as [ms|e];
      simpl in Hch; [|discriminate].
    injection Hch as <-. by eexists.
Qed.

Lemma C9_choice_list_order_witness :
  EnumField_init true (EnumCls Color) PositiveSmallIntegerField
    (kwargs_of (Some (PyList [PyEnum RED; PyPrim (PInt 3)])) false)
  = Ok {| enum_class := Color;
          field_class := PositiveSmallIntegerField;
          default_error_messages :=
            EnumField_default_error_messages
              ∪ fc_default_error_messages PositiveSmallIntegerField;
          choices := Some [(PInt 1, RED); (PInt 3, BLUE)];
          null := false;
          blank := None |} /\
  exists ms, Forall2 (fun x m => enum_call Color x = Ok m)
               [PyEnum RED; PyPrim (PInt 3)] ms /\
             [(PInt 1, RED); (PInt 3, BLUE)] = choice_option <$> ms.
Proof.
  assert (Hinit :
    EnumField_init true (EnumCls Color) PositiveSmallIntegerField
      (kwargs_of (Some (PyList [PyEnum RED; PyPrim (PInt 3)])) false)
    = Ok {| enum_class := Color;
            field_class := PositiveSmallIntegerField;
            default_error_messages :=
              EnumField_default_error_messages
                ∪ fc_default_error_messages PositiveSmallIntegerField;
            choices := Some [(PInt 1, RED); (PInt 3, BLUE)];
            null := false;
            blank := None |}).
  { vm_compute. reflexivity. }
  split; [exact Hinit|].
  apply (proj1 (proj2 (C9_choice_list_order _ _ _ _ _ Hinit))
           (PyList [PyEnum RED; PyPrim (PInt 3)])); reflexivity.
Defined.

(** C10.  A [choices] that is given but is not a list, tuple or set is not
    looked at: [prepare_choices] returns [None], and construction succeeds
    with a field that carries no choices. *)
Theorem C10_non_sequence_choices_dropped (ec : EnumClass) (fc : FieldClass)
    (kw : Kwargs) (c : pycollection) :
  kw_choices kw = Some c ->
  is_list_tuple_set c = false ->
  fc_is_Field fc = true ->
  prepare_choices ec (Some c) (kw_blank kw) = Ok None /\
  exists f, EnumField_init true (EnumCls ec) fc kw = Ok f /\ choices f = None.
Proof.
  intros Hkw Hc Hfc.
  assert (Hp : prepare_choices ec (Some c) (kw_blank kw) = Ok None).
  { unfold prepare_choices. by rewrite Hc. }
  split; [exact Hp|].
  rewrite <- Hkw in Hp.
  eexists. split; [exact (EnumField_init_total ec fc kw None Hfc Hp) | reflexivity].
Qed.

Lemma C10_non_sequence_choices_dropped_witness :
  prepare_choices Color (Some (PyDict [PyPrim (PInt 9)])) None = Ok None /\
  exists f, EnumField_init true (EnumCls Color) PositiveSmallIntegerField
              (kwargs_of (Some (PyDict [PyPrim (PInt 9)])) true) = Ok f
            /\ choices f = None.
Proof.
  apply (C10_non_sequence_choices_dropped Color PositiveSmallIntegerField
           (kwargs_of (Some (PyDict [PyPrim (PInt 9)])) true)
           (PyDict [PyPrim (PInt 9)])); reflexivity.
Defined.

(** * Further properties *)

(** ** The constructor *)


(** The checks of the constructor run in source order, each with its own
    exception: a missing enum library is an [ImportError] whatever the
    arguments; a class that is no enumeration is a [ValueError] before the
    field class is looked at; a field class that is no [Field] is a
    [ValueError] before [choices] is looked at. *)
Theorem EnumField_init_check_order (ec : PyClass) (c : EnumClass) (n : string)
    (fc : FieldClass) (kw : Kwargs) :
  EnumField_init false ec fc kw
  = Raise (ImportError "enum34 package is required for EnumField") /\
  EnumField_init true (PlainCls n) fc kw
  = Raise (ValueError "enum_class argument must be subclass of enum.Enum") /\
  (fc_is_Field fc = false ->
   EnumField_init true (EnumCls c) fc kw
   = Raise (ValueError "field_class argument must be subclass of Field")).
Proof.
  repeat split.
  intros Hfc. unfold EnumField_init, validate_field_class. simpl.
  by rewrite Hfc.
Qed.

Lemma EnumField_init_check_order_witness :
  EnumField_init false (EnumCls Color) PlainObject (kwargs_of None false)
  = Raise (ImportError "enum34 package is required for EnumField") /\
  EnumField_init true (PlainCls "int") PlainObject (kwargs_of None false)
  = Raise (ValueError "enum_class argument must be subclass of enum.Enum") /\
  EnumField_init true (EnumCls Color) PlainObject
    (kwargs_of (Some (PyList [PyPrim (PInt 9)])) false)
  = Raise (ValueError "field_class argument must be subclass of Field").
Proof.
  destruct (EnumField_init_check_order (EnumCls Color) Color "int" PlainObject
              (kwargs_of None false)) as (H1 & H2 & _).
  destruct (EnumField_init_check_order (EnumCls Color) Color "int" PlainObject
              (kwargs_of (Some (PyList [PyPrim (PInt 9)])) false)) as (_ & _ & H3).
  split; [exact H1|]. split; [exact H2|]. apply H3. reflexivity.
Defined.

(** The message table of a constructed field: the two enum templates are
    there whatever the field class declares under the same keys, and every
    other key reads as in the field class. *)
Theorem EnumField_init_messages (enum_module : bool) (ec : PyClass)
    (fc : FieldClass) (kw : Kwargs) (f : EnumField) :
  EnumField_init enum_module ec fc kw = Ok f ->
  default_error_messages f !! "invalid_value"
  = Some "%r is not a valid value for %r enum" /\
  default_error_messages f !! "invalid_type"
  = Some "%r is configured for %r enum but received %r" /\
  forall key, key <> "invalid_value" -> key <> "invalid_type" ->
    default_error_messages f !! key = fc_default_error_messages fc !! key.
Proof.
  intros Hinit. apply EnumField_init_Ok in Hinit as (_ & _ & _ & _ & -> & _).
  split; [apply merged_invalid_value|].
  split; [apply merged_invalid_type|].
  intros key H1 H2. by apply merged_other.
Qed.

Lemma EnumField_init_messages_witness :
  default_error_messages (color_field false) !! "invalid_value"
  = Some "%r is not a valid value for %r enum" /\
  default_error_messages (color_field false) !! "invalid_type"
  = Some "%r is configured for %r enum but received %r" /\
  forall key, key <> "invalid_value" -> key <> "invalid_type" ->
    default_error_messages (color_field false) !! key
    = fc_default_error_messages PositiveSmallIntegerField !! key.
Proof.
  apply (EnumField_init_messages true (EnumCls Color) PositiveSmallIntegerField
           (kwargs_of None false) (color_field false)).
  vm_compute. reflexivity.
Defined.

(** ** The coercer *)

(** When [validate_value] returns, and what: [None] for [None] on a
    nullable field, the member found for a primitive, the member itself
    for a member of the field's enumeration; nothing else returns. *)
Lemma validate_value_Ok_iff (Field_repr : EnumField -> string) (f : EnumField)
    (value result : pyval) :
  validate_value Field_repr f value = Ok result <->
  (value = PyNone /\ null f = true /\ result = PyNone) \/
  (exists p m, value = PyPrim p /\ value2member (enum_class f) p = Some m /\
               result = PyEnum m) \/
  (exists m, value = PyEnum m /\ m_cls m = enum_class f /\ result = PyEnum m).
Proof.
  destruct value as [|p|m].
  - rewrite validate_value_None. destruct (null f); split.
    + intros [= <-]. by left.
    + intros [(_ & _ & ->)|[(p & m & ? & _)|(m & ? & _)]]; done.
    + discriminate.
    + intros [(_ & ? & _)|[(p & m & ? & _)|(m & ? & _)]]; done.
  - split.
    + intros H. right. left.
      destruct (value2member (enum_class f) p) as [m|] eqn:Hm.
      * pose proof (proj2 (validate_value_prim Field_repr f p m) Hm) as Hv.
        rewrite Hv in H. injection H as <-. by exists p, m.
      * revert H. unfold validate_value. simpl. rewrite Hm.
        unfold not_a_valid. rewrite format_not_a_valid. simpl.
        destruct (is_substring _ _); simpl; [|discriminate].
        destruct (getitem _ _); simpl; [destruct (format _ _)|]; discriminate.
    + intros [(? & _)|[(p' & m & [= <-] & Hm & ->)|(m & ? & _)]]; [done| |done].
      by apply validate_value_prim.
  - split.
    + intros H. right. right.
      destruct (decide (m_cls m = enum_class f)) as [Heq|Hne].
      * rewrite validate_value_own in H by done. injection H as <-. by exists m.
      * revert H. unfold validate_value. simpl.
        rewrite bool_decide_eq_false_2 by done. simpl.
        destruct (getitem _ _); simpl; [destruct (format _ _)|]; discriminate.
    + intros [(? & _)|[(p & m' & ? & _)|(m' & [= <-] & Heq & ->)]]; [done|done|].
      by apply validate_value_own.
Qed.

(** What [validate_value] returns is [None] or a member of the field's own
    enumeration: never a primitive, never a member of another class. *)
Theorem validate_value_returns_member_or_None (Field_repr : EnumField -> string)
    (f : EnumField) (value result : pyval) :
  validate_value Field_repr f value = Ok result ->
  (result = PyNone /\ value = PyNone /\ null f = true) \/
  (exists m, result = PyEnum m /\ m_cls m = enum_class f).
Proof.
  intros H. apply validate_value_Ok_iff in H
    as [(-> & Hn & ->)|[(p & m & -> & Hm & ->)|(m & -> & Hm & ->)]].
  - by left.
  - right. exists m. split; [done|].
    apply value2member_Some in Hm as [Hm _]. by apply members_cls.
  - right. by exists m.
Qed.

Lemma validate_value_returns_member_or_None_witness :
  validate_value sample_Field_repr (color_field false) (PyPrim (PInt 3)) = Ok (PyEnum BLUE) /\
  ((PyEnum BLUE = PyNone /\ PyPrim (PInt 3) = PyNone /\ null (color_field false) = true) \/
   (exists m, PyEnum BLUE = PyEnum m /\ m_cls m = enum_class (color_field false))).
Proof.
  assert (H : validate_value sample_Field_repr (color_field false) (PyPrim (PInt 3))
              = Ok (PyEnum BLUE)) by reflexivity.
  split; [exact H|].
  exact (validate_value_returns_member_or_None sample_Field_repr (color_field false)
           (PyPrim (PInt 3)) (PyEnum BLUE) H).
Defined.

(** Coercing twice is coercing once: what [validate_value] returns is
    returned unchanged when handed back. *)
Theorem validate_value_idempotent (Field_repr : EnumField -> string)
    (f : EnumField) (value result : pyval) :
  validate_value Field_repr f value = Ok result ->
  validate_value Field_repr f result = Ok result.
Proof.
  intros H. apply validate_value_Ok_iff in H
    as [(-> & Hn & ->)|[(p & m & -> & Hm & ->)|(m & -> & Hm & ->)]].
  - rewrite validate_value_None. by rewrite Hn.
  - apply validate_value_own.
    apply value2member_Some in Hm as [Hm _]. by apply members_cls.
  - by apply validate_value_own.
Qed.

Lemma validate_value_idempotent_witness :
  validate_value sample_Field_repr (color_field false) (PyPrim (PInt 2)) = Ok (PyEnum GREEN) /\
  validate_value sample_Field_repr (color_field false) (PyEnum GREEN) = Ok (PyEnum GREEN).
Proof.
  assert (H : validate_value sample_Field_repr (color_field false) (PyPrim (PInt 2))
              = Ok (PyEnum GREEN)) by reflexivity.
  split; [exact H|].
  exact (validate_value_idempotent sample_Field_repr (color_field false)
           (PyPrim (PInt 2)) (PyEnum GREEN) H).
Defined.

(** What is accepted does not depend on [choices]: two fields over the
    same enumeration with the same [null] accept the same values with the
    same results, whatever their choice lists, field classes and
    messages. *)
Theorem validate_value_ignores_choices (Field_repr : EnumField -> string)
    (f g : EnumField) (value result : pyval) :
  enum_class f = enum_class g -> null f = null g ->
  validate_value Field_repr f value = Ok result ->
  validate_value Field_repr g value = Ok result.
Proof.
  intros Hc Hn H. apply validate_value_Ok_iff.
  apply validate_value_Ok_iff in H. by rewrite <- Hc, <- Hn.
Qed.

Lemma validate_value_ignores_choices_witness :
  validate_value sample_Field_repr (color_field false) (PyPrim (PInt 2)) = Ok (PyEnum GREEN) /\
  choices red_blue_field = Some [(PInt 1, RED); (PInt 3, BLUE)] /\
  validate_value sample_Field_repr red_blue_field (PyPrim (PInt 2)) = Ok (PyEnum GREEN).
Proof.
  assert (H : validate_value sample_Field_repr (color_field false) (PyPrim (PInt 2))
              = Ok (PyEnum GREEN)) by reflexivity.
  split; [exact H|]. split; [reflexivity|].
  apply (validate_value_ignores_choices sample_Field_repr (color_field false)
           red_blue_field (PyPrim (PInt 2)) (PyEnum GREEN)); [reflexivity|reflexivity|exact H].
Defined.



(** ** The storage-facing methods *)

(** [get_db_prep_value], [from_db_value] and [to_python] return the same
    thing on every input, however [validate_enum_value] resolves: the
    database value is not encoded any further than the Python value, and
    the [try] of [to_python] changes no outcome. *)
Theorem storage_methods_agree
    (Field_validate_enum_value : option (EnumField -> pyval -> result pyval))
    (f : EnumField) (value : pyval) :
  get_db_prep_value Field_validate_enum_value f value
  = from_db_value Field_validate_enum_value f value /\
  to_python Field_validate_enum_value f value
  = from_db_value Field_validate_enum_value f value.
Proof.
  unfold get_db_prep_value, to_python, from_db_value.
  destruct (self_validate_enum_value Field_validate_enum_value f value) as [v|[]];
    split; reflexivity.
Qed.

(** ** Choice lists *)

(** Every pair of a prepared choice list is a member of the field's
    enumeration under its own value.  A list made from [choices] has one
    pair per element, repeats included, so an empty [choices] gives an
    empty list and not the full one; the list made without [choices] has no
    two pairs with the same value. *)
Theorem prepare_choices_pairs (ec : EnumClass) (ch : option pycollection)
    (blank : option bool) (l : list (prim * Member)) :
  prepare_choices ec ch blank = Ok (Some l) ->
  Forall (fun pr => pr.1 = m_value pr.2 /\ m_cls pr.2 = ec) l /\
  (forall c, ch = Some c -> length l = length (items c)) /\
  (ch = None -> NoDup (l.*1)).
Proof.
  intros H.
  assert (Hcall : forall x m, enum_call ec x = Ok m -> m_cls m = ec).
  { intros [|p|m'] m; simpl.
    - unfold not_a_valid. rewrite format_not_a_valid. discriminate.
    - destruct (value2member ec p) as [m0|] eqn:Hm0.
      + intros [= <-]. apply value2member_Some in Hm0 as [Hin _].
        by apply members_cls.
      + unfold not_a_valid. rewrite format_not_a_valid. discriminate.
    - destruct (decide (m_cls m' = ec)).
      + by intros [= <-].
      + unfold not_a_valid. rewrite format_not_a_valid. discriminate. }
  destruct ch as [c|]; simpl in H.
  - destruct (is_list_tuple_set c); [|discriminate].
    destruct (map_result (enum_call ec) (items c)) as [ms|e] eqn:Hms;
      simpl in H; [|discriminate].
    injection H as <-. apply map_result_Ok in Hms.
    split; [|split].
    + unfold choice_list. apply Forall_fmap.
      clear -Hms Hcall. induction Hms as [|x m xs ms Hx _ IH]; constructor.
      * split; [reflexivity | by apply (Hcall x)].
      * exact IH.
    + intros c' [= <-]. unfold choice_list. rewrite length_fmap.
      symmetry. by apply (Forall2_length _ _ _ Hms).
    + discriminate.
  - injection H as <-. split; [|split].
    + unfold choice_list. apply Forall_fmap. apply Forall_forall.
      intros m Hm. split; [reflexivity | by apply members_cls].
    + discriminate.
    + intros _. unfold choice_list. rewrite <- list_fmap_compose.
      apply members_NoDup_values.
Qed.

Lemma prepare_choices_pairs_witness :
  prepare_choices Color (Some (PyTuple [PyPrim (PInt 3); PyEnum BLUE])) None
  = Ok (Some [(PInt 3, BLUE); (PInt 3, BLUE)]) /\
  Forall (fun pr => pr.1 = m_value pr.2 /\ m_cls pr.2 = Color)
    [(PInt 3, BLUE); (PInt 3, BLUE)] /\
  (forall c, Some (PyTuple [PyPrim (PInt 3); PyEnum BLUE]) = Some c ->
     length [(PInt 3, BLUE); (PInt 3, BLUE)] = length (items c)) /\
  (Some (PyTuple [PyPrim (PInt 3); PyEnum BLUE]) = None ->
     NoDup ([(PInt 3, BLUE); (PInt 3, BLUE)].*1)).
Proof.
  assert (H : prepare_choices Color (Some (PyTuple [PyPrim (PInt 3); PyEnum BLUE])) None
              = Ok (Some [(PInt 3, BLUE); (PInt 3, BLUE)])) by reflexivity.
  split; [exact H|].
  exact (prepare_choices_pairs Color _ None _ H).
Defined.

(** An element of [choices] may be a member or the value of a member: both
    spellings, in any mix, give the same list. *)
Theorem prepare_choices_members_or_values (ec : EnumClass) (c : pycollection)
    (blank : option bool) (ms : list Member) :
  is_list_tuple_set c = true ->
  Forall2 (fun x m => m ∈ members ec /\ (x = PyEnum m \/ x = PyPrim (m_value m)))
    (items c) ms ->
  prepare_choices ec (Some c) blank = Ok (Some (choice_option <$> ms)).
Proof.
  intros Hc Hms. apply prepare_choices_sequence; [exact Hc|].
  eapply Forall2_impl; [exact Hms|].
  intros x m [Hin [->| ->]]; simpl.
  - rewrite decide_True; [reflexivity | by apply members_cls].
  - by rewrite (value2member_member _ _ Hin).
Qed.

Lemma prepare_choices_members_or_values_witness :
  prepare_choices Color (Some (PySet [PyEnum RED; PyPrim (PInt 3)])) None
  = Ok (Some (choice_option <$> [RED; BLUE])).
Proof.
  apply (prepare_choices_members_or_values Color
           (PySet [PyEnum RED; PyPrim (PInt 3)]) None [RED; BLUE]).
  - reflexivity.
  - constructor.
    + split; [vm_compute; left | left; reflexivity].
    + constructor; [|constructor].
      split; [vm_compute; right; right; left | right; reflexivity].
Defined.

(** ** Migrations: [deconstruct] *)

(** [deconstruct] deletes the keywords [enum_class] and [field_class] from
    what [Field.deconstruct] reports, in that order and without testing
    for them: if the first is not reported the call ends in
    [KeyError('enum_class')], if only the second is missing in
    [KeyError('field_class')], and only when both are reported does it
    return, with name, path and args untouched. *)
Theorem deconstruct_cases
    (Field_deconstruct :
       EnumField -> result (string * string * list pyobj * gmap string pyobj))
    (self : EnumField) (name path : string) (args : list pyobj)
    (kwargs : gmap string pyobj) :
  Field_deconstruct self = Ok (name, path, args, kwargs) ->
  deconstruct Field_deconstruct self =
  match kwargs !! "enum_class", kwargs !! "field_class" with
  | None, _ => Raise (KeyError "enum_class")
  | Some _, None => Raise (KeyError "field_class")
  | Some _, Some _ =>
      Ok (name, path, args, delete "field_class" (delete "enum_class" kwargs))
  end.
Proof.
  intros Hsuper. unfold deconstruct. rewrite Hsuper. simpl.
  unfold delitem.
  destruct (kwargs !! "enum_class") as [v1|]; simpl; [|reflexivity].
  rewrite lookup_delete_ne by discriminate.
  destruct (kwargs !! "field_class") as [v2|]; reflexivity.
Qed.

Lemma deconstruct_cases_witness :
  deconstruct sample_deconstruct_plain (color_field false)
  = Raise (KeyError "enum_class").
Proof.
  exact (deconstruct_cases sample_deconstruct_plain (color_field false)
           "color" "django.db.models.fields.enum_field.EnumField" []
           {[ "null" := ObjVal (PyPrim (PInt 1)) ]} eq_refl).
Defined.


(** ** Forms: [formfield] *)

(** [formfield] hands [Field.formfield] every keyword of the caller
    unchanged, and adds [form_class=EnumChoiceField] and
    [enum_class=self.enum_class] where the caller gave none; no other key
    is added. *)
Theorem formfield_keywords (FormField : Type)
    (Field_formfield : EnumField -> gmap string pyobj -> result FormField)
    (self : EnumField) (kwargs : gmap string pyobj) :
  exists defaults,
    formfield FormField Field_formfield self kwargs = Field_formfield self defaults /\
    (forall key v, kwargs !! key = Some v -> defaults !! key = Some v) /\
    (kwargs !! "form_class" = None ->
     defaults !! "form_class" = Some (ObjClass (PlainCls "EnumChoiceField"))) /\
    (kwargs !! "enum_class" = None ->
     defaults !! "enum_class" = Some (ObjClass (EnumCls (enum_class self)))) /\
    (forall key, key <> "form_class" -> key <> "enum_class" ->
     defaults !! key = kwargs !! key).
Proof.
  exists (kwargs ∪ formfield_defaults self).
  split; [reflexivity|]. split; [|split; [|split]].
  - intros key v Hk. by apply lookup_union_Some_l.
  - intros Hk. rewrite lookup_union_r by done. reflexivity.
  - intros Hk. rewrite lookup_union_r by done. reflexivity.
  - intros key H1 H2. apply lookup_union_l.
    unfold formfield_defaults.
    rewrite lookup_insert_ne by congruence.
    apply lookup_singleton_ne. congruence.
Qed.

(** ** The form field *)

(** [EnumChoiceField.prepare_value] never returns a member: a member of any
    enumeration, the field's own or not, is replaced by its value, and
    anything else is returned as it is; applying it twice changes nothing
    more. *)
Theorem EnumChoiceField_prepare_value_primitive (self : EnumChoiceField) (value : pyval) :
  isinstance_Enum (EnumChoiceField_prepare_value self value) = false /\
  EnumChoiceField_prepare_value self (EnumChoiceField_prepare_value self value)
  = EnumChoiceField_prepare_value self value /\
  (isinstance_Enum value = false -> EnumChoiceField_prepare_value self value = value).
Proof. destruct value as [|p|m]; simpl; repeat split; discriminate. Qed.

(** [EnumChoiceField.to_python], outcome by outcome: an exception of
    [forms.ChoiceField.to_python] passes through; an empty value becomes
    [None]; a member is returned as it is; anything else ends in
    [NameError], since the name [uuid] is not bound.  [uuid.UUID] is never
    called and the [except ValueError] handler is never entered. *)
Theorem EnumChoiceField_to_python_outcomes
    (ChoiceField_to_python : EnumChoiceField -> pyval -> result pyval)
    (uuid_UUID : pyval -> result pyval)
    (self : EnumChoiceField) (value : pyval) :
  EnumChoiceField_to_python ChoiceField_to_python uuid_UUID self value =
  match ChoiceField_to_python self value with
  | Raise e => Raise e
  | Ok v =>
      if bool_decide (v ∈ empty_values self) then Ok PyNone
      else if isinstance_Enum v then Ok v
      else Raise (NameError "name 'uuid' is not defined")
  end.
Proof.
  unfold EnumChoiceField_to_python.
  destruct (ChoiceField_to_python self value) as [v|e]; simpl; [|reflexivity].
  destruct (bool_decide (v ∈ empty_values self)); [reflexivity|].
  destruct (isinstance_Enum v); reflexivity.
Qed.
